(** * Input validation for time-series-as-features data

    A shallow embedding of [sktime/utils/validation/series_as_features.py]
    ([check_X], [check_y], [check_X_y], [_enforce_min_instances]) and the
    properties its specification states about it.

    Python values are modelled by the inductive [pyobj]; a Python call either
    returns a value or raises an exception, which is the error monad
    [result].  Exception messages are the f-strings of the source, built
    with Python's [repr] of integers and tuples. *)

From Stdlib Require Import ZArith List String Ascii Bool Lia DecimalString.
Import ListNotations.

Local Open Scope string_scope.
Local Open Scope Z_scope.

(** ** Python strings *)

Module PyStr.

(** [repr] of a Python [int]. *)
Definition repr_int (z : Z) : string :=
  NilZero.string_of_int (Z.to_int z).

Definition repr_nat (n : nat) : string := repr_int (Z.of_nat n).

(** [", ".join(...)]. *)
Fixpoint join (sep : string) (l : list string) : string :=
  match l with
  | [] => ""
  | [s] => s
  | s :: rest => s ++ sep ++ join sep rest
  end.

(** [repr] of a tuple of ints, as printed for an array's [shape]:
    [()], [(5,)], [(5, 2, 10)]. *)
Definition repr_tuple (t : list nat) : string :=
  match t with
  | [] => "()"
  | [n] => "(" ++ repr_nat n ++ ",)"
  | _ => "(" ++ join ", " (map repr_nat t) ++ ")"
  end.

(** [repr] of a list of ints: [[5, 3]]. *)
Definition repr_list (l : list nat) : string :=
  "[" ++ join ", " (map repr_nat l) ++ "]".

(** [s.startswith(p)]. *)
Fixpoint startswith (p s : string) : bool :=
  match p, s with
  | EmptyString, _ => true
  | String a p', String b s' => Ascii.eqb a b && startswith p' s'
  | String _ _, EmptyString => false
  end.

(** [t in s]: [t] occurs in [s] as a contiguous substring. *)
Fixpoint contains (t s : string) : bool :=
  startswith t s ||
  match s with
  | EmptyString => false
  | String _ s' => contains t s'
  end.

End PyStr.
Import PyStr.

(** ** Exceptions and results *)

Inductive exc_type : Type :=
| ValueError
| IndexError
| TypeError
| AttributeError.

Record exception : Type := Exception {
  exc_class : exc_type;
  exc_msg : string
}.

Inductive result (A : Type) : Type :=
| Ok (a : A)
| Err (e : exception).
Arguments Ok {A} a.
Arguments Err {A} e.

Definition ret {A} (a : A) : result A := Ok a.

Definition raise {A} (c : exc_type) (msg : string) : result A :=
  Err (Exception c msg).

Definition bind {A B} (m : result A) (k : A -> result B) : result B :=
  match m with
  | Ok a => k a
  | Err e => Err e
  end.

Notation "x <- m ;; k" := (bind m (fun x => k))
  (at level 61, m at next level, right associativity).
Notation "' pat <- m ;; k" := (bind m (fun x => match x with pat => k end))
  (at level 61, pat pattern, m at next level, right associativity).
Notation "m ;;; k" := (bind m (fun _ => k))
  (at level 61, right associativity).

Definition succeeds {A} (r : result A) : Prop := exists a, r = Ok a.

(** The error taxonomy of the specification.  The source raises one Python
    exception class at every site; a category is read off the message. *)
Inductive spec_error : Type :=
| InvalidTypeError
| InvalidShapeError
| InvalidStructureError
| InconsistentLengthError.

(** ** Messages

    The f-strings of the source, one definition per [raise] site. *)

Module Msg.

(** [check_X], type check; [ty] is [repr(type(X))]. *)
Definition X_type (ty : string) : string :=
  "X must be a pd.DataFrame or a np.array, but found: " ++ ty.

(** [check_X], rank check. *)
Definition X_ndim (sh : list nat) : string :=
  "If passed as a np.array, X must be a 3-dimensional array, but found shape: "
    ++ repr_tuple sh.

(** [check_X], minimum number of columns. *)
Definition X_min_columns (enforce_min_columns : Z) (n_columns : nat) : string :=
  "X must contain at least: " ++ repr_int enforce_min_columns
    ++ " columns,but found only: " ++ repr_nat n_columns ++ ".".

(** [check_X], univariate data. *)
Definition X_univariate (n_columns : nat) : string :=
  "This method requires X to be univariate with X.shape[1]== 1, but found: X.shape[1] == "
    ++ repr_nat n_columns ++ ".".

(** [check_X], nested frame. *)
Definition X_nested : string :=
  "If passed as a pd.DataFrame, X must be a nested pd.DataFrame, with pd.Series or np.arrays inside cells.".

(** [check_y], type check; [ty] is [repr(type(y))]. *)
Definition y_type (ty : string) : string :=
  "y must be either a pd.Series or a np.ndarray, but found type: " ++ ty.

(** [_enforce_min_instances]. *)
Definition min_instances (n_instances : nat) (min_instances : Z) : string :=
  "Found array with: " ++ repr_nat n_instances
    ++ " instance(s) but a minimum of: " ++ repr_int min_instances
    ++ " is required.".

(** [check_consistent_length] of scikit-learn. *)
Definition inconsistent_length (lengths : list nat) : string :=
  "Found input variables with inconsistent numbers of samples: "
    ++ repr_list lengths.

Definition singleton_array : string :=
  "Singleton array cannot be considered a valid collection.".

End Msg.

(** The category of the specification an exception falls in, told by the
    opening words of its message. *)
Definition spec_category (e : exception) : option spec_error :=
  let m := exc_msg e in
  if startswith "X must be a pd.DataFrame or a np.array, but found: " m
     || startswith "y must be either a pd.Series or a np.ndarray, but found type: " m
  then Some InvalidTypeError
  else if startswith "If passed as a np.array, X must be a 3-dimensional array" m
          || startswith "X must contain at least: " m
          || startswith "This method requires X to be univariate" m
          || startswith "Found array with: " m
  then Some InvalidShapeError
  else if startswith "If passed as a pd.DataFrame, X must be a nested pd.DataFrame" m
  then Some InvalidStructureError
  else if startswith "Found input variables with inconsistent numbers of samples: " m
  then Some InconsistentLengthError
  else None.

(** [r] is a failure that falls in category [cat]. *)
Definition fails_with {A} (r : result A) (cat : spec_error) : Prop :=
  exists e, r = Err e /\ spec_category e = Some cat.

Section SeriesAsFeatures.

(** The numeric type held in arrays, series and cells. *)
Context {scalar : Type}.

(** ** Data model *)

(** [np.ndarray]: a shape and the elements in row-major order. *)
Record ndarray : Type := NDArray {
  shape : list nat;
  data : list scalar
}.

Definition ndim (a : ndarray) : nat := List.length (shape a).

Definition size_of (sh : list nat) : nat := fold_right Nat.mul 1%nat sh.

Definition ndarray_wf (a : ndarray) : Prop :=
  List.length (data a) = size_of (shape a).

(** A cell of a [pd.DataFrame]: a plain number, or a nested series
    ([pd.Series] or [np.array]) of numbers. *)
Inductive cell : Type :=
| CScalar (v : scalar)
| CNested (s : list scalar).

(** [pd.DataFrame]: the rows in index order; the number of columns is kept
    apart, since a frame without rows still has its columns. *)
Record dataframe : Type := DataFrame {
  df_columns : nat;
  df_rows : list (list cell)
}.

Definition dataframe_wf (df : dataframe) : Prop :=
  Forall (fun r => List.length r = df_columns df) (df_rows df).

Definition df_shape (df : dataframe) : list nat :=
  [List.length (df_rows df); df_columns df].

(** The Python values the checks may be handed. *)
Inductive pyobj : Type :=
| NdArray (a : ndarray)
| PdDataFrame (df : dataframe)
| PdSeries (values : list scalar)
| PyList (items : list scalar).

(** [repr(type(x))]. *)
Definition type_repr (x : pyobj) : string :=
  match x with
  | NdArray _ => "<class 'numpy.ndarray'>"
  | PdDataFrame _ => "<class 'pandas.core.frame.DataFrame'>"
  | PdSeries _ => "<class 'pandas.core.series.Series'>"
  | PyList _ => "<class 'list'>"
  end.

Definition isinstance_ndarray (x : pyobj) : bool :=
  match x with NdArray _ => true | _ => false end.

Definition isinstance_DataFrame (x : pyobj) : bool :=
  match x with PdDataFrame _ => true | _ => false end.

Definition isinstance_Series (x : pyobj) : bool :=
  match x with PdSeries _ => true | _ => false end.

(** [getattr(x, "shape", None)]: arrays, frames and series have a shape, a
    list has none. *)
Definition shape_attr (x : pyobj) : option (list nat) :=
  match x with
  | NdArray a => Some (shape a)
  | PdDataFrame df => Some (df_shape df)
  | PdSeries values => Some [List.length values]
  | PyList _ => None
  end.

Definition hasattr_shape (x : pyobj) : bool :=
  match shape_attr x with Some _ => true | None => false end.

(** [x.shape]. *)
Definition get_shape (x : pyobj) : result (list nat) :=
  match shape_attr x with
  | Some sh => ret sh
  | None =>
      raise AttributeError
        ("'list' object has no attribute 'shape'")
  end.

(** [t[i]] on a tuple. *)
Definition getitem (t : list nat) (i : nat) : result nat :=
  match nth_error t i with
  | Some n => ret n
  | None => raise IndexError "tuple index out of range"
  end.

(** [a, b = t[:2]]. *)
Definition unpack2 (t : list nat) : result (nat * nat) :=
  match firstn 2 t with
  | [a; b] => ret (a, b)
  | l =>
      raise ValueError
        ("not enough values to unpack (expected 2, got "
           ++ repr_nat (List.length l) ++ ")")
  end.

(** The numbers held by a cell, in order. *)
Definition cell_values (c : cell) : list scalar :=
  match c with
  | CScalar v => [v]
  | CNested s => s
  end.

(** [np.asarray(x)].  For a frame the element list is the right one only
    when its cells are numbers; the checks read nothing but the shape. *)
Definition np_asarray (x : pyobj) : ndarray :=
  match x with
  | NdArray a => a
  | PdDataFrame df =>
      NDArray (df_shape df) (flat_map (flat_map cell_values) (df_rows df))
  | PdSeries values => NDArray [List.length values] values
  | PyList items => NDArray [List.length items] items
  end.

(** ** Collaborators *)

Definition is_nested_cell (c : cell) : bool :=
  match c with
  | CNested _ => true
  | CScalar _ => false
  end.

(** Modelled from the spec: [is_nested_dataframe] lives in
    [sktime.utils.data_container], which is not among the sources.
    "IsNestedTabular(value) -> bool: true iff every cell in a tabular
    structure holds a sequence-like value rather than a scalar." *)
Definition is_nested_dataframe (X : pyobj) : bool :=
  match X with
  | PdDataFrame df => forallb (forallb is_nested_cell) (df_rows df)
  | _ => false
  end.

(** Number of time points of the first cell of a frame; [0] when the frame
    has no cell. *)
Definition first_cell_length (df : dataframe) : nat :=
  match df_rows df with
  | (c :: _) :: _ => List.length (cell_values c)
  | _ => 0%nat
  end.

(** Modelled from the spec: [nested_to_3d_numpy] lives in
    [sktime.utils.data_container], which is not among the sources.
    "NestedToDenseArray(value) -> DenseArray3D: converts a validated nested
    tabular structure into a dense (instance, variable, timepoint) array".
    The elements are laid out instance by instance, variable by variable.
    The spec leaves the result open when the cells differ in length; the
    properties below use the function on uniform frames only. *)
Definition nested_to_3d_numpy (df : dataframe) : ndarray :=
  NDArray
    [List.length (df_rows df); df_columns df; first_cell_length df]
    (flat_map (flat_map cell_values) (df_rows df)).

(** Length of the leading axis of an array-like, when it has one. *)
Definition leading_length (x : pyobj) : option nat :=
  hd_error (shape (np_asarray x)).

(** Modelled from the spec: [check_consistent_length] is imported from
    scikit-learn and is not among the sources.
    "CheckConsistentLength(a, b): fails if the leading-dimension lengths of
    a and b differ."  The spec does not say what happens to a value without
    a leading dimension; scikit-learn raises a [TypeError] there. *)
Definition check_consistent_length (a b : pyobj) : result unit :=
  match leading_length a, leading_length b with
  | Some n, Some m =>
      if (n =? m)%nat then ret tt
      else raise ValueError (Msg.inconsistent_length [n; m])
  | _, _ => raise TypeError Msg.singleton_array
  end.

(** [pd.Series.to_numpy()]: the same values as a 1-dimensional array. *)
Definition to_numpy (values : list scalar) : ndarray :=
  NDArray [List.length values] values.

(** Instance and variable count of a feature collection: the first two
    axes of a 3-dimensional array, rows and columns of a frame. *)
Definition feature_dims (X : pyobj) : option (nat * nat) :=
  match X with
  | NdArray a =>
      match shape a with
      | [n; c; _] => Some (n, c)
      | _ => None
      end
  | PdDataFrame df => Some (List.length (df_rows df), df_columns df)
  | _ => None
  end.

(** Every cell of the frame is a nested series of [t] time points. *)
Definition cells_have_length (t : nat) (df : dataframe) : bool :=
  forallb
    (forallb (fun c => match c with
                       | CNested s => (List.length s =? t)%nat
                       | CScalar _ => false
                       end))
    (df_rows df).

(** ** The validation functions *)

Definition _enforce_min_instances (x : pyobj) (min_instances : Z)
  : result unit :=
  n_instances <-
    (if hasattr_shape x then
       sh <- get_shape x ;; getitem sh 0
     else
       let x := np_asarray x in
       getitem (shape x) 0) ;;
  if min_instances >? 0 then
    if Z.of_nat n_instances <? min_instances then
      raise ValueError (Msg.min_instances n_instances min_instances)
    else ret tt
  else ret tt.

Definition check_X (X : pyobj) (return_numpy enforce_univariate : bool)
    (enforce_min_instances enforce_min_columns : Z) : result pyobj :=
  (* check input type *)
  (if negb (isinstance_DataFrame X || isinstance_ndarray X) then
     raise ValueError (Msg.X_type (type_repr X))
   else ret tt) ;;;
  (* check np.array: the number of dimensions first *)
  (match X with
   | NdArray a =>
       if negb (ndim a =? 3)%nat then
         raise ValueError (Msg.X_ndim (shape a))
       else ret tt
   | _ => ret tt
   end) ;;;
  sh <- get_shape X ;;
  '(n_instances, n_columns) <- unpack2 sh ;;
  (* enforce minimum number of columns *)
  (if Z.of_nat n_columns <? enforce_min_columns then
     raise ValueError (Msg.X_min_columns enforce_min_columns n_columns)
   else ret tt) ;;;
  (* enforce univariate data *)
  (if enforce_univariate then
     if Z.of_nat n_columns >? 1 then
       sh <- get_shape X ;;
       shape_1 <- getitem sh 1 ;;
       raise ValueError (Msg.X_univariate shape_1)
     else ret tt
   else ret tt) ;;;
  (* enforce minimum number of instances *)
  (if enforce_min_instances >? 0 then
     _enforce_min_instances X enforce_min_instances
   else ret tt) ;;;
  (* check pd.DataFrame *)
  match X with
  | PdDataFrame df =>
      if negb (is_nested_dataframe X) then
        raise ValueError Msg.X_nested
      else if return_numpy then
        ret (NdArray (nested_to_3d_numpy df))
      else ret X
  | _ => ret X
  end.

Definition check_y (y : pyobj) (enforce_min_instances : Z)
    (return_numpy : bool) : result pyobj :=
  (if negb (isinstance_Series y || isinstance_ndarray y) then
     raise ValueError (Msg.y_type (type_repr y))
   else ret tt) ;;;
  (if enforce_min_instances >? 0 then
     _enforce_min_instances y enforce_min_instances
   else ret tt) ;;;
  match return_numpy, y with
  | true, PdSeries values => ret (NdArray (to_numpy values))
  | _, _ => ret y
  end.

Definition check_X_y (X y : pyobj) (enforce_univariate : bool)
    (enforce_min_instances enforce_min_columns : Z)
  : result (pyobj * pyobj) :=
  X <- check_X X false enforce_univariate
         enforce_min_instances enforce_min_columns ;;
  y <- check_y y 1 false ;;
  check_consistent_length X y ;;;
  ret (X, y).

End SeriesAsFeatures.

(** ** Sample inputs *)

Module Sample.

(** [np.zeros((5, 1, 10))]. *)
Definition dense_5_1_10 : @pyobj Z :=
  NdArray (NDArray [5; 1; 10]%nat (repeat 0 50)).

(** [np.zeros((5, 2, 10))]. *)
Definition dense_5_2_10 : @pyobj Z :=
  NdArray (NDArray [5; 2; 10]%nat (repeat 0 100)).

(** [np.zeros((0, 2, 5))]: two variables, no instance. *)
Definition dense_0_2_5 : @pyobj Z :=
  NdArray (NDArray [0; 2; 5]%nat []).

(** [np.zeros((0, 1, 5))]: one variable, no instance. *)
Definition dense_0_1_5 : @pyobj Z :=
  NdArray (NDArray [0; 1; 5]%nat []).

(** [np.zeros((5, 10))]. *)
Definition dense_5_10 : @ndarray Z :=
  NDArray [5; 10]%nat (repeat 0 50).

(** [np.array(5)]: an array of rank 0. *)
Definition zero_dim : @ndarray Z := NDArray [] [5].

(** [pd.Series([1, 2, 3, 4, 5])]. *)
Definition series_5 : @pyobj Z := PdSeries [1; 2; 3; 4; 5].

(** [pd.Series([])]. *)
Definition empty_series : @pyobj Z := PdSeries [].

(** A nested frame of 2 instances and 1 variable, 3 time points each. *)
Definition nested_2_1_3 : @dataframe Z :=
  DataFrame 1 [[CNested [1; 2; 3]]; [CNested [4; 5; 6]]].

(** A frame of plain numbers. *)
Definition flat_2_1 : @dataframe Z :=
  DataFrame 1 [[CScalar 1]; [CScalar 2]].

End Sample.

(** ** Facts about strings and results *)

Lemma startswith_app (p s : string) : startswith p (p ++ s) = true.
Proof.
  induction p as [|a p IH]; simpl.
  - reflexivity.
  - now rewrite Ascii.eqb_refl, IH.
Qed.

Lemma contains_startswith (t s : string) :
  startswith t s = true -> contains t s = true.
Proof.
  destruct s; simpl; intros ->; reflexivity.
Qed.

Lemma contains_here (t s : string) : contains t (t ++ s) = true.
Proof.
  apply contains_startswith, startswith_app.
Qed.

Lemma contains_tail (pre t : string) : contains t (pre ++ t) = true.
Proof.
  induction pre as [|a pre IH].
  - simpl. apply contains_startswith.
    induction t as [|b t IH]; simpl; [reflexivity|].
    now rewrite Ascii.eqb_refl.
  - simpl. rewrite IH. apply orb_true_r.
Qed.

Lemma contains_skip (pre t s : string) :
  contains t s = true -> contains t (pre ++ s) = true.
Proof.
  intros H. induction pre as [|a pre IH]; simpl.
  - exact H.
  - rewrite IH. apply orb_true_r.
Qed.

(** The messages of the instance-count guard name the count found and the
    minimum asked for. *)
Lemma min_instances_msg_found (n : nat) (m : Z) :
  contains (repr_nat n) (Msg.min_instances n m) = true.
Proof.
  unfold Msg.min_instances. apply contains_skip, contains_here.
Qed.

Lemma min_instances_msg_required (n : nat) (m : Z) :
  contains (repr_int m) (Msg.min_instances n m) = true.
Proof.
  unfold Msg.min_instances.
  do 3 apply contains_skip. apply contains_here.
Qed.

Lemma univariate_msg_found (c : nat) :
  contains (repr_nat c) (Msg.X_univariate c) = true.
Proof.
  unfold Msg.X_univariate. apply contains_skip, contains_here.
Qed.

Lemma ndim_msg_shape (sh : list nat) :
  contains (repr_tuple sh) (Msg.X_ndim sh) = true.
Proof.
  unfold Msg.X_ndim. apply contains_tail.
Qed.

Lemma min_columns_msg_required (m : Z) (c : nat) :
  contains (repr_int m) (Msg.X_min_columns m c) = true.
Proof.
  unfold Msg.X_min_columns. apply contains_skip, contains_here.
Qed.

Lemma min_columns_msg_found (m : Z) (c : nat) :
  contains (repr_nat c) (Msg.X_min_columns m c) = true.
Proof.
  unfold Msg.X_min_columns. do 3 apply contains_skip. apply contains_here.
Qed.

Lemma bind_Ok {A B} (m : result A) (k : A -> result B) (b : B) :
  bind m k = Ok b -> exists a, m = Ok a /\ k a = Ok b.
Proof.
  destruct m as [a|e]; simpl; intros H; [eauto | discriminate].
Qed.

Section Properties.

Context {scalar : Type}.
Implicit Types (X y x : @pyobj scalar) (a : @ndarray scalar)
  (df : @dataframe scalar).

(** *** The instance-count guard *)

Lemma enforce_min_instances_leading x n (min_instances : Z) :
  leading_length x = Some n ->
  _enforce_min_instances x min_instances =
    if min_instances >? 0 then
      if Z.of_nat n <? min_instances then
        raise ValueError (Msg.min_instances n min_instances)
      else ret tt
    else ret tt.
Proof.
  unfold leading_length, _enforce_min_instances.
  destruct x as [a|df|values|items]; simpl.
  - destruct (shape a) as [|k rest]; simpl; [discriminate|].
    intros [= ->]. reflexivity.
  - intros [= <-]. reflexivity.
  - intros [= <-]. reflexivity.
  - intros [= <-]. reflexivity.
Qed.

Lemma enforce_min_instances_scalar x (min_instances : Z) :
  leading_length x = None ->
  _enforce_min_instances x min_instances =
    raise IndexError "tuple index out of range".
Proof.
  unfold leading_length, _enforce_min_instances.
  destruct x as [a|df|values|items]; simpl; try discriminate.
  destruct (shape a) as [|k rest]; simpl; [reflexivity|discriminate].
Qed.

(** *** [check_y] and [check_X], case by case *)

Lemma check_y_unfold y (enforce_min_instances : Z) (return_numpy : bool) :
  isinstance_Series y || isinstance_ndarray y = true ->
  check_y y enforce_min_instances return_numpy =
    (if enforce_min_instances >? 0 then
       _enforce_min_instances y enforce_min_instances
     else ret tt) ;;;
    ret (match y with
         | PdSeries values =>
             if return_numpy then NdArray (to_numpy values) else y
         | _ => y
         end).
Proof.
  intros Hty. unfold check_y. rewrite Hty. simpl.
  destruct return_numpy, y; reflexivity.
Qed.

Lemma check_y_type_error y (enforce_min_instances : Z) (return_numpy : bool) :
  isinstance_Series y || isinstance_ndarray y = false ->
  check_y y enforce_min_instances return_numpy =
    raise ValueError (Msg.y_type (type_repr y)).
Proof.
  intros Hty. unfold check_y. rewrite Hty. reflexivity.
Qed.

Lemma feature_dims_leading X n c :
  feature_dims X = Some (n, c) -> leading_length X = Some n.
Proof.
  destruct X as [a|df|values|items]; simpl; try discriminate.
  - unfold leading_length. simpl.
    destruct (shape a) as [|k [|k' [|k'' [|? ?]]]]; try discriminate.
    now intros [= -> ->].
  - now intros [= <- <-].
Qed.

(** The body of [check_X] once the type and rank checks are passed. *)
Lemma check_X_unfold X n c (return_numpy enforce_univariate : bool)
    (enforce_min_instances enforce_min_columns : Z) :
  feature_dims X = Some (n, c) ->
  check_X X return_numpy enforce_univariate
    enforce_min_instances enforce_min_columns =
    if Z.of_nat c <? enforce_min_columns then
      raise ValueError (Msg.X_min_columns enforce_min_columns c)
    else if enforce_univariate && (Z.of_nat c >? 1) then
      raise ValueError (Msg.X_univariate c)
    else if (enforce_min_instances >? 0)
            && (Z.of_nat n <? enforce_min_instances) then
      raise ValueError (Msg.min_instances n enforce_min_instances)
    else
      match X with
      | PdDataFrame df =>
          if negb (is_nested_dataframe X) then
            raise ValueError Msg.X_nested
          else if return_numpy then
            ret (NdArray (nested_to_3d_numpy df))
          else ret X
      | _ => ret X
      end.
Proof.
  intros Hdims.
  pose proof (feature_dims_leading _ _ _ Hdims) as Hlead.
  unfold check_X.
  rewrite (enforce_min_instances_leading _ _ enforce_min_instances Hlead).
  destruct X as [a|df|values|items]; simpl in Hdims; try discriminate.
  - unfold ndim, get_shape. simpl.
    destruct (shape a) as [|k [|k' [|k'' [|? ?]]]]; try discriminate.
    injection Hdims as -> ->. simpl.
    destruct (Z.of_nat c <? enforce_min_columns); [reflexivity|]. simpl.
    destruct enforce_univariate; simpl.
    + destruct (Z.of_nat c >? 1); [reflexivity|]. simpl.
      destruct (enforce_min_instances >? 0); [|reflexivity]. simpl.
      destruct (Z.of_nat n <? enforce_min_instances); reflexivity.
    + destruct (enforce_min_instances >? 0); [|reflexivity]. simpl.
      destruct (Z.of_nat n <? enforce_min_instances); reflexivity.
  - injection Hdims as <- <-. unfold get_shape. simpl.
    destruct (Z.of_nat (df_columns df) <? enforce_min_columns);
      [reflexivity|]. simpl.
    destruct enforce_univariate; simpl.
    + destruct (Z.of_nat (df_columns df) >? 1); [reflexivity|]. simpl.
      destruct (enforce_min_instances >? 0); [|reflexivity]. simpl.
      destruct (Z.of_nat (List.length (df_rows df)) <? enforce_min_instances);
        reflexivity.
    + destruct (enforce_min_instances >? 0); [|reflexivity]. simpl.
      destruct (Z.of_nat (List.length (df_rows df)) <? enforce_min_instances);
        reflexivity.
Qed.

Lemma check_X_type_error X (return_numpy enforce_univariate : bool)
    (enforce_min_instances enforce_min_columns : Z) :
  isinstance_DataFrame X || isinstance_ndarray X = false ->
  check_X X return_numpy enforce_univariate
    enforce_min_instances enforce_min_columns =
    raise ValueError (Msg.X_type (type_repr X)).
Proof.
  intros Hty. unfold check_X. rewrite Hty. reflexivity.
Qed.

Lemma check_X_rank_error a (return_numpy enforce_univariate : bool)
    (enforce_min_instances enforce_min_columns : Z) :
  ndim a <> 3%nat ->
  check_X (NdArray a) return_numpy enforce_univariate
    enforce_min_instances enforce_min_columns =
    raise ValueError (Msg.X_ndim (shape a)).
Proof.
  intros Hrank. unfold check_X. simpl.
  apply Nat.eqb_neq in Hrank. rewrite Hrank. reflexivity.
Qed.

(** An array or a frame either has feature dimensions or is an array of
    rank other than 3. *)
Lemma feature_dims_cases X :
  isinstance_DataFrame X || isinstance_ndarray X = true ->
  (exists n c, feature_dims X = Some (n, c))
  \/ (exists a, X = NdArray a /\ ndim a <> 3%nat).
Proof.
  destruct X as [a|df|values|items]; simpl; try discriminate; intros _.
  - unfold ndim.
    destruct (shape a) as [|k [|k' [|k'' [|? ?]]]] eqn:E;
      try (right; exists a; rewrite E; simpl; split; [reflexivity|lia]).
    left. eauto.
  - left. eauto.
Qed.

(** C2. A dense array whose rank is not 3 is refused by [check_X] with the
    rank error of the shape category, whatever the flags are; the message
    prints the array's shape.  The outcome does not depend on any entry of
    the shape, so no dimension is read before the rank is checked. *)
Theorem check_X_rank_not_3 a (return_numpy enforce_univariate : bool)
    (enforce_min_instances enforce_min_columns : Z) :
  ndim a <> 3%nat ->
  exists e,
    check_X (NdArray a) return_numpy enforce_univariate
      enforce_min_instances enforce_min_columns = Err e
    /\ e = Exception ValueError (Msg.X_ndim (shape a))
    /\ spec_category e = Some InvalidShapeError
    /\ contains (repr_tuple (shape a)) (exc_msg e) = true.
Proof.
  intros Hrank. eexists. split; [|split; [reflexivity|split]].
  - unfold check_X. simpl.
    apply Nat.eqb_neq in Hrank. rewrite Hrank. reflexivity.
  - reflexivity.
  - apply ndim_msg_shape.
Qed.

(** C3 (amended). For a collection, that is a value with a leading axis of
    length [n].  When the minimum is 0 or negative the instance-count check
    does nothing: the guard returns without failing whatever [n] is,
    [check_y] accepts the collection if it is a series or an array (and
    refuses it with the type error otherwise), and the outcome of [check_X]
    is that of its other checks: an [X] that passes the rank, column and
    univariate checks is returned, a frame subject to the structure check
    and the conversion asked for.  When the minimum is at least 1 and [n]
    is below it: the guard fails with the shape-category error that names
    both [n] and the minimum; [check_y] fails with that same error if the
    collection is a series or an array, and with the type error otherwise;
    [check_X] fails with the type error if the collection is neither an
    array nor a frame, and otherwise with a shape-category error, which is
    that same insufficient-instance error whenever [X] passes the rank,
    column and univariate checks that come before the instance check. *)
Theorem min_instances_check x n (min_instances : Z) :
  leading_length x = Some n ->
  let e_min := Exception ValueError (Msg.min_instances n min_instances) in
  let e_type_y := Exception ValueError (Msg.y_type (type_repr x)) in
  let e_type_X := Exception ValueError (Msg.X_type (type_repr x)) in
  (min_instances <= 0 ->
     _enforce_min_instances x min_instances = Ok tt
     /\ (forall return_numpy,
           if isinstance_Series x || isinstance_ndarray x
           then succeeds (check_y x min_instances return_numpy)
           else check_y x min_instances return_numpy = Err e_type_y)
     /\ (forall return_numpy enforce_univariate enforce_min_columns c,
           feature_dims x = Some (n, c) ->
           enforce_min_columns <= Z.of_nat c ->
           (enforce_univariate = true -> Z.of_nat c <= 1) ->
           check_X x return_numpy enforce_univariate
             min_instances enforce_min_columns =
             match x with
             | PdDataFrame df =>
                 if negb (is_nested_dataframe x) then
                   raise ValueError Msg.X_nested
                 else if return_numpy then
                   ret (NdArray (nested_to_3d_numpy df))
                 else ret x
             | _ => ret x
             end))
  /\ (1 <= min_instances -> Z.of_nat n < min_instances ->
       _enforce_min_instances x min_instances = Err e_min
       /\ spec_category e_min = Some InvalidShapeError
       /\ contains (repr_nat n) (exc_msg e_min) = true
       /\ contains (repr_int min_instances) (exc_msg e_min) = true
       /\ spec_category e_type_y = Some InvalidTypeError
       /\ spec_category e_type_X = Some InvalidTypeError
       /\ (forall return_numpy,
             check_y x min_instances return_numpy =
               Err (if isinstance_Series x || isinstance_ndarray x
                    then e_min else e_type_y))
       /\ (forall return_numpy enforce_univariate enforce_min_columns,
             exists e,
               check_X x return_numpy enforce_univariate
                 min_instances enforce_min_columns = Err e
               /\ exc_class e = ValueError
               /\ if isinstance_DataFrame x || isinstance_ndarray x
                  then spec_category e = Some InvalidShapeError
                       /\ (forall c,
                             feature_dims x = Some (n, c) ->
                             enforce_min_columns <= Z.of_nat c ->
                             (enforce_univariate = true -> Z.of_nat c <= 1) ->
                             e = e_min)
                  else e = e_type_X)).
Proof.
  intros Hlead e_min e_type_y e_type_X. split.
  - intros Hmin.
    assert (Hoff : (min_instances >? 0) = false) by lia.
    split; [|split].
    + rewrite (enforce_min_instances_leading _ _ _ Hlead), Hoff. reflexivity.
    + intros rn.
      destruct (isinstance_Series x || isinstance_ndarray x) eqn:Hty.
      * rewrite (check_y_unfold _ _ _ Hty), Hoff. simpl.
        eexists. reflexivity.
      * apply check_y_type_error, Hty.
    + intros rn eu mc c Hd Hc Hu.
      rewrite (check_X_unfold _ _ _ rn eu min_instances mc Hd), Hoff.
      replace (Z.of_nat c <? mc) with false by lia.
      replace (eu && (Z.of_nat c >? 1)) with false.
      2:{ destruct eu; simpl; [|reflexivity]. specialize (Hu eq_refl). lia. }
      reflexivity.
  - intros Hmin Hlow.
    assert (Hon : (min_instances >? 0) = true) by lia.
    assert (Hlt : (Z.of_nat n <? min_instances) = true) by lia.
    assert (Hguard : _enforce_min_instances x min_instances = Err e_min).
    { rewrite (enforce_min_instances_leading _ _ _ Hlead), Hon, Hlt.
      reflexivity. }
    split; [exact Hguard|]. split; [reflexivity|].
    split; [apply min_instances_msg_found|].
    split; [apply min_instances_msg_required|].
    split; [reflexivity|]. split; [reflexivity|]. split.
    + intros rn.
      destruct (isinstance_Series x || isinstance_ndarray x) eqn:Hty.
      * rewrite (check_y_unfold _ _ _ Hty), Hon, Hguard. reflexivity.
      * apply check_y_type_error, Hty.
    + intros rn eu mc.
      destruct (isinstance_DataFrame x || isinstance_ndarray x) eqn:Hty.
      2:{ exists e_type_X. split; [apply check_X_type_error, Hty|].
          split; reflexivity. }
      destruct (feature_dims_cases _ Hty) as [(k & c & Hd)|(a & -> & Hr)].
      * pose proof (feature_dims_leading _ _ _ Hd) as Hk.
        rewrite Hlead in Hk. injection Hk as <-.
        rewrite (check_X_unfold _ _ _ rn eu min_instances mc Hd), Hon, Hlt.
        simpl.
        destruct (Z.of_nat c <? mc) eqn:Hc.
        { eexists. split; [reflexivity|]. split; [reflexivity|].
          split; [reflexivity|].
          intros c' Hd'. rewrite Hd in Hd'. injection Hd' as <-. lia. }
        destruct eu; simpl.
        -- destruct (Z.of_nat c >? 1) eqn:Hu.
           { eexists. split; [reflexivity|]. split; [reflexivity|].
             split; [reflexivity|].
             intros c' Hd'. rewrite Hd in Hd'. injection Hd' as <-.
             intros _ Hle. specialize (Hle eq_refl). lia. }
           eexists. split; [reflexivity|]. split; [reflexivity|].
           split; reflexivity.
        -- eexists. split; [reflexivity|]. split; [reflexivity|].
           split; reflexivity.
      * rewrite (check_X_rank_error _ rn eu min_instances mc Hr).
        eexists. split; [reflexivity|]. split; [reflexivity|].
        split; [reflexivity|].
        intros c Hd. exfalso. apply Hr. unfold ndim. simpl in Hd.
        destruct (shape a) as [|k [|k' [|k'' [|? ?]]]]; try discriminate.
        reflexivity.
Qed.

(** A series or array with enough instances passes [check_y]; only a
    series is converted, and only on demand. *)
Lemma check_y_enough_instances y n (enforce_min_instances : Z)
    (return_numpy : bool) :
  isinstance_Series y || isinstance_ndarray y = true ->
  leading_length y = Some n ->
  enforce_min_instances <= Z.of_nat n ->
  check_y y enforce_min_instances return_numpy =
    Ok (match y with
        | PdSeries values =>
            if return_numpy then NdArray (to_numpy values) else y
        | _ => y
        end).
Proof.
  intros Hty Hlead Hmin.
  rewrite (check_y_unfold _ _ _ Hty).
  rewrite (enforce_min_instances_leading _ _ _ Hlead).
  destruct (enforce_min_instances >? 0); [|reflexivity].
  replace (Z.of_nat n <? enforce_min_instances) with false by lia.
  reflexivity.
Qed.

(** C9. [check_y] does not look at the rank of a dense target: an array of
    any rank whose leading axis is at least as long as the minimum asked
    for is returned as it is. *)
Theorem check_y_any_rank a n (rest : list nat)
    (enforce_min_instances : Z) (return_numpy : bool) :
  shape a = n :: rest ->
  enforce_min_instances <= Z.of_nat n ->
  check_y (NdArray a) enforce_min_instances return_numpy = Ok (NdArray a).
Proof.
  intros Hshape Hmin.
  apply (check_y_enough_instances (NdArray a) n);
    [reflexivity | | exact Hmin].
  unfold leading_length. simpl. now rewrite Hshape.
Qed.

(** C8 (amended). With [return_numpy] set, a series of [n] values and the
    1-dimensional array of the same [n] values are mapped by [check_y] to
    one and the same array of length [n], provided [n] reaches the minimum
    number of instances: the series is converted, the array is returned
    unchanged. *)
Theorem check_y_series_array_agree (values : list scalar)
    (enforce_min_instances : Z) :
  enforce_min_instances <= Z.of_nat (List.length values) ->
  let dense := NDArray [List.length values] values in
  check_y (PdSeries values) enforce_min_instances true = Ok (NdArray dense)
  /\ check_y (NdArray dense) enforce_min_instances true = Ok (NdArray dense)
  /\ ndarray_wf dense.
Proof.
  intros Hmin dense. split; [|split].
  - apply (check_y_enough_instances (PdSeries values) (List.length values));
      [reflexivity | reflexivity | exact Hmin].
  - apply (check_y_enough_instances (NdArray dense) (List.length values));
      [reflexivity | reflexivity | exact Hmin].
  - unfold ndarray_wf. simpl. lia.
Qed.

(** C5. For a feature input that [check_X] accepts without the univariate
    demand (at least one column being required), [check_X] with
    [enforce_univariate] set succeeds exactly when the input has one
    column; with more than one column it fails with a shape-category
    error whose message gives the number of columns found. *)
Theorem check_X_univariate X X' (return_numpy : bool)
    (enforce_min_instances enforce_min_columns : Z) :
  1 <= enforce_min_columns ->
  check_X X return_numpy false
    enforce_min_instances enforce_min_columns = Ok X' ->
  exists n c,
    feature_dims X = Some (n, c)
    /\ (succeeds (check_X X return_numpy true
                    enforce_min_instances enforce_min_columns)
        <-> c = 1%nat)
    /\ (c = 1%nat ->
        check_X X return_numpy true
          enforce_min_instances enforce_min_columns = Ok X')
    /\ ((1 < c)%nat ->
        exists e,
          check_X X return_numpy true
            enforce_min_instances enforce_min_columns = Err e
          /\ e = Exception ValueError (Msg.X_univariate c)
          /\ spec_category e = Some InvalidShapeError
          /\ contains (repr_nat c) (exc_msg e) = true).
Proof.
  intros Hmc Hok.
  destruct (isinstance_DataFrame X || isinstance_ndarray X) eqn:Hty.
  2:{ rewrite check_X_type_error in Hok by exact Hty. discriminate. }
  destruct (feature_dims_cases _ Hty) as [(n & c & Hd)|(a & -> & Hr)].
  2:{ rewrite check_X_rank_error in Hok by exact Hr. discriminate. }
  exists n, c. split; [exact Hd|].
  rewrite (check_X_unfold _ _ _ _ _ _ _ Hd) in Hok.
  rewrite (check_X_unfold _ _ _ return_numpy true _ _ Hd).
  destruct (Z.of_nat c <? enforce_min_columns) eqn:Hc; [discriminate|].
  simpl in Hok. simpl.
  destruct (Z.of_nat c >? 1) eqn:Hu.
  - split; [|split].
    + split; [intros [r Hr]; discriminate | lia].
    + lia.
    + intros _. eexists. split; [reflexivity|]. split; [reflexivity|].
      split; [reflexivity|].
      apply univariate_msg_found.
  - split; [|split].
    + split; [lia | intros _; exists X'; exact Hok].
    + intros _. exact Hok.
    + lia.
Qed.

(** C7. For a frame that passes the column, univariate and instance
    checks, [check_X] fails with the structure error exactly when the frame
    is not nested; a nested frame is returned, converted to a dense array
    only when [return_numpy] is set.  A frame that fails one of the earlier
    checks gets a shape error, nested or not: the structure check comes
    after them. *)
Theorem check_X_nested_structure df (return_numpy enforce_univariate : bool)
    (enforce_min_instances enforce_min_columns : Z) :
  let X := PdDataFrame df in
  let n := Z.of_nat (List.length (df_rows df)) in
  let c := Z.of_nat (df_columns df) in
  let r := check_X X return_numpy enforce_univariate
             enforce_min_instances enforce_min_columns in
  (c < enforce_min_columns
   \/ (enforce_univariate = true /\ 1 < c)
   \/ (0 < enforce_min_instances /\ n < enforce_min_instances) ->
   fails_with r InvalidShapeError)
  /\ (enforce_min_columns <= c ->
      (enforce_univariate = true -> c <= 1) ->
      (0 < enforce_min_instances -> enforce_min_instances <= n) ->
      (fails_with r InvalidStructureError <-> is_nested_dataframe X = false)
      /\ (is_nested_dataframe X = false ->
          r = Err (Exception ValueError Msg.X_nested))
      /\ (is_nested_dataframe X = true ->
          r = Ok (if return_numpy then NdArray (nested_to_3d_numpy df)
                  else X))).
Proof.
  intros X n c r. subst r.
  rewrite (check_X_unfold X (List.length (df_rows df)) (df_columns df))
    by reflexivity.
  fold n c. split.
  - intros Hbad.
    destruct (c <? enforce_min_columns) eqn:Hc.
    { eexists. split; reflexivity. }
    destruct (enforce_univariate && (c >? 1)) eqn:Hu.
    { eexists. split; reflexivity. }
    destruct ((enforce_min_instances >? 0) && (n <? enforce_min_instances))
      eqn:Hi.
    { eexists. split; reflexivity. }
    exfalso. destruct enforce_univariate; simpl in Hu;
      destruct Hbad as [H|[[H1 H2]|[H1 H2]]]; try discriminate; lia.
  - intros Hc Hu Hi.
    replace (c <? enforce_min_columns) with false by lia.
    replace (enforce_univariate && (c >? 1)) with false.
    2:{ destruct enforce_univariate; simpl; [|reflexivity].
        specialize (Hu eq_refl). lia. }
    replace ((enforce_min_instances >? 0) && (n <? enforce_min_instances))
      with false.
    2:{ destruct (enforce_min_instances >? 0) eqn:E; simpl; [|reflexivity].
        assert (0 < enforce_min_instances) as H by lia.
        specialize (Hi H). lia. }
    subst X. simpl.
    destruct (forallb (forallb is_nested_cell) (df_rows df)); simpl.
    + split; [|split].
      * split; [|discriminate].
        intros (e & He & Hcat). destruct return_numpy; discriminate.
      * discriminate.
      * intros _. destruct return_numpy; reflexivity.
    + split; [|split].
      * split; [reflexivity|]. intros _. eexists. split; reflexivity.
      * reflexivity.
      * discriminate.
Qed.

(** *** Conversion of a nested frame *)

Lemma row_values_length (t : nat) (row : list (@cell scalar)) :
  forallb (fun c => match c with
                    | CNested s => (List.length s =? t)%nat
                    | CScalar _ => false
                    end) row = true ->
  List.length (flat_map cell_values row) = (List.length row * t)%nat.
Proof.
  induction row as [|c row IH]; simpl; [reflexivity|].
  intros H. apply andb_true_iff in H as [Hc Hrow].
  rewrite length_app, (IH Hrow).
  destruct c as [v|s]; [discriminate|].
  apply Nat.eqb_eq in Hc. simpl. lia.
Qed.

Lemma frame_values_length (t c : nat) (rows : list (list (@cell scalar))) :
  Forall (fun r => List.length r = c) rows ->
  forallb (forallb (fun c => match c with
                             | CNested s => (List.length s =? t)%nat
                             | CScalar _ => false
                             end)) rows = true ->
  List.length (flat_map (flat_map cell_values) rows)
  = (List.length rows * (c * t))%nat.
Proof.
  induction rows as [|r rows IH]; simpl; [reflexivity|].
  intros Hwf H. inversion Hwf as [|? ? Hr Hrows]; subst.
  apply andb_true_iff in H as [Hrow Hrest].
  rewrite length_app, (IH Hrows Hrest), (row_values_length t r Hrow).
  lia.
Qed.

Lemma cells_have_length_nested (t : nat) df :
  cells_have_length t df = true ->
  is_nested_dataframe (PdDataFrame df) = true.
Proof.
  unfold cells_have_length. simpl.
  induction (df_rows df) as [|r rows IH]; simpl; [reflexivity|].
  intros H. apply andb_true_iff in H as [Hrow Hrest].
  rewrite (IH Hrest), andb_true_r. clear IH Hrest.
  induction r as [|c r IHr]; simpl; [reflexivity|].
  simpl in Hrow. apply andb_true_iff in Hrow as [Hc Hr].
  rewrite (IHr Hr). destruct c; [discriminate|reflexivity].
Qed.

Lemma first_cell_length_uniform (t : nat) df :
  dataframe_wf df ->
  cells_have_length t df = true ->
  (1 <= List.length (df_rows df))%nat ->
  (1 <= df_columns df)%nat ->
  first_cell_length df = t.
Proof.
  unfold dataframe_wf, cells_have_length, first_cell_length.
  destruct (df_rows df) as [|r rows]; simpl; [lia|].
  intros Hwf H _ Hc. inversion Hwf as [|? ? Hr _]; subst.
  destruct r as [|c r]; simpl in *; [lia|].
  destruct c as [v|s]; [discriminate|].
  apply andb_true_iff in H as [H _].
  apply andb_true_iff in H as [H _].
  now apply Nat.eqb_eq in H.
Qed.

(** C6. A well-formed nested frame of [n] rows and [c] columns that
    [check_X] accepts, each cell holding [t] time points, is turned by
    [check_X] with [return_numpy] set into a dense array of shape
    [(n, c, t)]; [check_X] with [return_numpy] set returns that array as
    it is. *)
Theorem check_X_return_numpy df (n c t : nat) X' :
  dataframe_wf df ->
  List.length (df_rows df) = n ->
  df_columns df = c ->
  cells_have_length t df = true ->
  check_X (PdDataFrame df) false false 1 1 = Ok X' ->
  exists dense,
    check_X (PdDataFrame df) true false 1 1 = Ok (NdArray dense)
    /\ shape dense = [n; c; t]
    /\ ndarray_wf dense
    /\ check_X (NdArray dense) true false 1 1 = Ok (NdArray dense).
Proof.
  intros Hwf Hn Hc Hcells Hok.
  rewrite (check_X_unfold _ n c) in Hok by (simpl; congruence).
  rewrite (cells_have_length_nested t df Hcells) in Hok. simpl in Hok.
  destruct (Z.of_nat c <? 1) eqn:Hc1; [discriminate|].
  destruct (Z.of_nat n <? 1) eqn:Hn1; [discriminate|].
  assert (Ht : first_cell_length df = t).
  { apply first_cell_length_uniform; try assumption; lia. }
  exists (nested_to_3d_numpy df).
  split; [|split; [|split]].
  - rewrite (check_X_unfold _ n c) by (simpl; congruence).
    rewrite (cells_have_length_nested t df Hcells), Hc1, Hn1.
    reflexivity.
  - unfold nested_to_3d_numpy. simpl. congruence.
  - unfold ndarray_wf, nested_to_3d_numpy. simpl.
    rewrite (frame_values_length t c) by (try assumption; now subst c).
    rewrite Ht, Hn, Hc. lia.
  - rewrite (check_X_unfold _ n c).
    + rewrite Hc1, Hn1. reflexivity.
    + unfold nested_to_3d_numpy. simpl. congruence.
Qed.

(** *** The pair check *)

Lemma check_X_accepts X X' (enforce_univariate : bool)
    (enforce_min_instances enforce_min_columns : Z) :
  check_X X false enforce_univariate
    enforce_min_instances enforce_min_columns = Ok X' ->
  X' = X /\ exists n c, feature_dims X = Some (n, c).
Proof.
  intros Hok.
  destruct (isinstance_DataFrame X || isinstance_ndarray X) eqn:Hty.
  2:{ rewrite check_X_type_error in Hok by exact Hty. discriminate. }
  destruct (feature_dims_cases _ Hty) as [(n & c & Hd)|(a & -> & Hr)].
  2:{ rewrite check_X_rank_error in Hok by exact Hr. discriminate. }
  split; [|eauto].
  rewrite (check_X_unfold _ _ _ _ _ _ _ Hd) in Hok.
  destruct (Z.of_nat c <? enforce_min_columns); [discriminate|].
  destruct (enforce_univariate && (Z.of_nat c >? 1)); [discriminate|].
  destruct ((enforce_min_instances >? 0)
            && (Z.of_nat n <? enforce_min_instances)); [discriminate|].
  destruct X as [a|df|values|items]; try discriminate.
  - now injection Hok.
  - destruct (negb (is_nested_dataframe (PdDataFrame df)));
      [discriminate|]. now injection Hok.
Qed.

Lemma check_y_accepts y y' :
  check_y y 1 false = Ok y' ->
  y' = y /\ exists m, leading_length y = Some m /\ (1 <= m)%nat.
Proof.
  intros Hok.
  destruct (isinstance_Series y || isinstance_ndarray y) eqn:Hty.
  2:{ rewrite check_y_type_error in Hok by exact Hty. discriminate. }
  rewrite (check_y_unfold _ _ _ Hty) in Hok. simpl in Hok.
  destruct (leading_length y) as [m|] eqn:Hlead.
  - rewrite (enforce_min_instances_leading _ _ _ Hlead) in Hok.
    simpl in Hok.
    destruct (Z.of_nat m <? 1) eqn:Hm; [discriminate|]. simpl in Hok.
    split; [|exists m; split; [reflexivity|lia]].
    destruct y; now injection Hok.
  - rewrite (enforce_min_instances_scalar _ _ Hlead) in Hok. discriminate.
Qed.

(** C1. When [X] passes [check_X] under the forwarded flags and [y] passes
    [check_y] under its defaults, [check_X_y] fails with the
    inconsistent-length error exactly when the number of instances of [X]
    differs from the number of entries of [y]; when they agree it returns
    the pair the two checks produced. *)
Theorem check_X_y_consistent_length X y X' y' (enforce_univariate : bool)
    (enforce_min_instances enforce_min_columns : Z) :
  check_X X false enforce_univariate
    enforce_min_instances enforce_min_columns = Ok X' ->
  check_y y 1 false = Ok y' ->
  let r := check_X_y X y enforce_univariate
             enforce_min_instances enforce_min_columns in
  exists n m,
    leading_length X = Some n
    /\ leading_length y = Some m
    /\ (fails_with r InconsistentLengthError <-> n <> m)
    /\ (n <> m ->
        r = Err (Exception ValueError (Msg.inconsistent_length [n; m])))
    /\ (n = m -> r = Ok (X', y')).
Proof.
  intros HX Hy r.
  destruct (check_X_accepts _ _ _ _ _ HX) as [-> (n & c & Hd)].
  destruct (check_y_accepts _ _ Hy) as [-> (m & Hm & _)].
  pose proof (feature_dims_leading _ _ _ Hd) as Hn.
  exists n, m. split; [exact Hn|]. split; [exact Hm|].
  assert (Hr : r = if (n =? m)%nat then Ok (X, y)
                   else Err (Exception ValueError
                               (Msg.inconsistent_length [n; m]))).
  { subst r. unfold check_X_y. rewrite HX. simpl. rewrite Hy. simpl.
    unfold check_consistent_length. rewrite Hn, Hm.
    destruct (n =? m)%nat; reflexivity. }
  rewrite Hr. destruct (n =? m)%nat eqn:E.
  - apply Nat.eqb_eq in E. split; [|split].
    + split; [intros (e & He & _); discriminate | congruence].
    + congruence.
    + reflexivity.
  - apply Nat.eqb_neq in E. split; [|split].
    + split; [intros _; exact E|].
      intros _. eexists. split; reflexivity.
    + reflexivity.
    + congruence.
Qed.

(** A failure of the feature check is the failure of the pair check; the
    target is not looked at. *)
Lemma check_X_y_feature_error X y e (enforce_univariate : bool)
    (enforce_min_instances enforce_min_columns : Z) :
  check_X X false enforce_univariate
    enforce_min_instances enforce_min_columns = Err e ->
  check_X_y X y enforce_univariate
    enforce_min_instances enforce_min_columns = Err e.
Proof.
  intros HX. unfold check_X_y. rewrite HX. reflexivity.
Qed.

(** C4 (amended). [check_X_y] hands its three parameters to [check_X]
    only, which runs first: a failure of [check_X] under these parameters
    is the failure of [check_X_y].  Once [X] has passed, the target goes
    through [check_y] with a minimum of 1 instance and without conversion,
    whatever the parameters are: a series or array [y] without instances
    is refused with the insufficient-instance error (found 0, minimum 1),
    even when [enforce_min_instances] is 0, and a target that passes is
    returned as it was given. *)
Theorem check_X_y_target_defaults X y (enforce_univariate : bool)
    (enforce_min_instances enforce_min_columns : Z) :
  let r := check_X_y X y enforce_univariate
             enforce_min_instances enforce_min_columns in
  (forall e,
     check_X X false enforce_univariate
       enforce_min_instances enforce_min_columns = Err e ->
     r = Err e)
  /\ (forall X',
        check_X X false enforce_univariate
          enforce_min_instances enforce_min_columns = Ok X' ->
        r = (y' <- check_y y 1 false ;;
             check_consistent_length X' y' ;;;
             ret (X', y'))
        /\ (forall X'' y'', r = Ok (X'', y'') -> X'' = X' /\ y'' = y)
        /\ (isinstance_Series y || isinstance_ndarray y = true ->
            leading_length y = Some 0%nat ->
            r = Err (Exception ValueError (Msg.min_instances 0 1))
            /\ fails_with r InvalidShapeError)).
Proof.
  intros r. split.
  - intros e HX. apply check_X_y_feature_error, HX.
  - intros X' HX.
    assert (Hr : r = (y' <- check_y y 1 false ;;
                      check_consistent_length X' y' ;;;
                      ret (X', y'))).
    { subst r. unfold check_X_y. rewrite HX. reflexivity. }
    split; [exact Hr|]. split.
    + intros X'' y'' Hok. rewrite Hr in Hok.
      apply bind_Ok in Hok as (y1 & Hy1 & Hok).
      apply bind_Ok in Hok as ([] & _ & Hok).
      injection Hok as <- <-.
      now destruct (check_y_accepts _ _ Hy1) as [-> _].
    + intros Hty Hlead.
      assert (Hy : check_y y 1 false
                   = Err (Exception ValueError (Msg.min_instances 0 1))).
      { rewrite (check_y_unfold _ _ _ Hty). simpl.
        rewrite (enforce_min_instances_leading _ _ _ Hlead). reflexivity. }
      rewrite Hr, Hy. split; [reflexivity|].
      eexists. split; reflexivity.
Qed.

(** *** Exception classes *)

(** Every failure of [check_X] is a [ValueError] of one of the categories
    of the specification. *)
Lemma check_X_raises_ValueError X e (return_numpy enforce_univariate : bool)
    (enforce_min_instances enforce_min_columns : Z) :
  check_X X return_numpy enforce_univariate
    enforce_min_instances enforce_min_columns = Err e ->
  exc_class e = ValueError
  /\ (spec_category e = Some InvalidTypeError
      \/ spec_category e = Some InvalidShapeError
      \/ spec_category e = Some InvalidStructureError).
Proof.
  destruct (isinstance_DataFrame X || isinstance_ndarray X) eqn:Hty.
  2:{ rewrite check_X_type_error by exact Hty.
      intros [= <-]. split; [reflexivity|]. left.
      destruct X; try discriminate; reflexivity. }
  destruct (feature_dims_cases _ Hty) as [(n & c & Hd)|(a & -> & Hr)].
  2:{ rewrite check_X_rank_error by exact Hr.
      intros [= <-]. split; [reflexivity|]. right. left. reflexivity. }
  rewrite (check_X_unfold _ _ _ _ _ _ _ Hd).
  destruct (Z.of_nat c <? enforce_min_columns).
  { intros [= <-]. split; [reflexivity|]. right. left. reflexivity. }
  destruct (enforce_univariate && (Z.of_nat c >? 1)).
  { intros [= <-]. split; [reflexivity|]. right. left. reflexivity. }
  destruct ((enforce_min_instances >? 0)
            && (Z.of_nat n <? enforce_min_instances)).
  { intros [= <-]. split; [reflexivity|]. right. left. reflexivity. }
  destruct X as [a|df|values|items]; try discriminate.
  destruct (negb (is_nested_dataframe (PdDataFrame df))).
  - intros [= <-]. split; [reflexivity|]. right. right. reflexivity.
  - destruct return_numpy; discriminate.
Qed.

(** A failure of [check_y] is a [ValueError], but for a target without a
    leading axis, where reading [shape[0]] raises an [IndexError]. *)
Lemma check_y_raises y e (enforce_min_instances : Z) (return_numpy : bool) :
  check_y y enforce_min_instances return_numpy = Err e ->
  (exc_class e = ValueError
   /\ (spec_category e = Some InvalidTypeError
       \/ spec_category e = Some InvalidShapeError))
  \/ (leading_length y = None /\ exc_class e = IndexError).
Proof.
  destruct (isinstance_Series y || isinstance_ndarray y) eqn:Hty.
  2:{ rewrite check_y_type_error by exact Hty.
      intros [= <-]. left. split; [reflexivity|]. left.
      destruct y; try discriminate; reflexivity. }
  rewrite (check_y_unfold _ _ _ Hty).
  destruct (enforce_min_instances >? 0); [|discriminate].
  destruct (leading_length y) as [m|] eqn:Hlead.
  - rewrite (enforce_min_instances_leading _ _ _ Hlead).
    destruct (enforce_min_instances >? 0); [|discriminate].
    destruct (Z.of_nat m <? enforce_min_instances); [|discriminate].
    intros [= <-]. left. split; [reflexivity|]. right. reflexivity.
  - rewrite (enforce_min_instances_scalar _ _ Hlead).
    intros [= <-]. right. split; reflexivity.
Qed.

(** *** Further properties of [check_X] *)

(** What [check_X] hands back when it accepts [X]. *)
Lemma check_X_Ok_inv X X' (return_numpy enforce_univariate : bool)
    (enforce_min_instances enforce_min_columns : Z) :
  check_X X return_numpy enforce_univariate
    enforce_min_instances enforce_min_columns = Ok X' ->
  exists n c,
    feature_dims X = Some (n, c)
    /\ enforce_min_columns <= Z.of_nat c
    /\ (enforce_univariate = true -> Z.of_nat c <= 1)
    /\ (0 < enforce_min_instances -> enforce_min_instances <= Z.of_nat n)
    /\ (isinstance_DataFrame X = true -> is_nested_dataframe X = true)
    /\ X' = match return_numpy, X with
            | true, PdDataFrame df => NdArray (nested_to_3d_numpy df)
            | _, _ => X
            end.
Proof.
  intros Hok.
  destruct (isinstance_DataFrame X || isinstance_ndarray X) eqn:Hty.
  2:{ rewrite check_X_type_error in Hok by exact Hty. discriminate. }
  destruct (feature_dims_cases _ Hty) as [(n & c & Hd)|(a & -> & Hr)].
  2:{ rewrite check_X_rank_error in Hok by exact Hr. discriminate. }
  exists n, c. split; [exact Hd|].
  rewrite (check_X_unfold _ _ _ _ _ _ _ Hd) in Hok.
  destruct (Z.of_nat c <? enforce_min_columns) eqn:Hc; [discriminate|].
  destruct (enforce_univariate && (Z.of_nat c >? 1)) eqn:Hu; [discriminate|].
  destruct ((enforce_min_instances >? 0)
            && (Z.of_nat n <? enforce_min_instances)) eqn:Hi; [discriminate|].
  split; [lia|]. split.
  { intros ->. simpl in Hu. lia. }
  split.
  { intros Hpos. apply andb_false_iff in Hi as [Hi|Hi]; lia. }
  destruct X as [a|df|values|items]; try discriminate.
  - split; [discriminate|]. injection Hok as <-.
    destruct return_numpy; reflexivity.
  - destruct (is_nested_dataframe (PdDataFrame df)) eqn:Hn;
      [|discriminate].
    split; [reflexivity|].
    destruct return_numpy; now injection Hok.
Qed.

Lemma check_X_Ok_intro X n c (return_numpy enforce_univariate : bool)
    (enforce_min_instances enforce_min_columns : Z) :
  feature_dims X = Some (n, c) ->
  enforce_min_columns <= Z.of_nat c ->
  (enforce_univariate = true -> Z.of_nat c <= 1) ->
  (0 < enforce_min_instances -> enforce_min_instances <= Z.of_nat n) ->
  (isinstance_DataFrame X = true -> is_nested_dataframe X = true) ->
  check_X X return_numpy enforce_univariate
    enforce_min_instances enforce_min_columns =
    Ok (match return_numpy, X with
        | true, PdDataFrame df => NdArray (nested_to_3d_numpy df)
        | _, _ => X
        end).
Proof.
  intros Hd Hc Hu Hi Hn.
  rewrite (check_X_unfold _ _ _ _ _ _ _ Hd).
  replace (Z.of_nat c <? enforce_min_columns) with false by lia.
  replace (enforce_univariate && (Z.of_nat c >? 1)) with false.
  2:{ destruct enforce_univariate; simpl; [|reflexivity].
      specialize (Hu eq_refl). lia. }
  replace ((enforce_min_instances >? 0)
           && (Z.of_nat n <? enforce_min_instances)) with false.
  2:{ destruct (enforce_min_instances >? 0) eqn:E; simpl; [|reflexivity].
      assert (0 < enforce_min_instances) as H by lia.
      specialize (Hi H). lia. }
  destruct X as [a|df|values|items]; try discriminate.
  - destruct return_numpy; reflexivity.
  - rewrite (Hn eq_refl). simpl. destruct return_numpy; reflexivity.
Qed.

(** X1. The type test comes first in both checks: a series or a list handed
    in as [X], and a frame or a list handed in as [y], is refused with the
    type error, whose message ends with the type found, whatever the other
    arguments are. *)
Theorem wrong_type_refused X y (return_numpy enforce_univariate : bool)
    (enforce_min_instances enforce_min_columns : Z) :
  isinstance_DataFrame X || isinstance_ndarray X = false ->
  isinstance_Series y || isinstance_ndarray y = false ->
  let eX := Exception ValueError (Msg.X_type (type_repr X)) in
  let ey := Exception ValueError (Msg.y_type (type_repr y)) in
  check_X X return_numpy enforce_univariate
    enforce_min_instances enforce_min_columns = Err eX
  /\ check_y y enforce_min_instances return_numpy = Err ey
  /\ spec_category eX = Some InvalidTypeError
  /\ spec_category ey = Some InvalidTypeError
  /\ contains (type_repr X) (exc_msg eX) = true
  /\ contains (type_repr y) (exc_msg ey) = true.
Proof.
  intros HX Hy eX ey.
  split; [now apply check_X_type_error|].
  split; [now apply check_y_type_error|].
  split; [reflexivity|]. split; [reflexivity|].
  split; apply contains_tail.
Qed.

(** X2. The minimum number of columns is enforced before the univariate and
    the instance check: an array of rank 3 or a frame with fewer columns
    than asked for gets the column error, whatever the other arguments are,
    and its message gives both the minimum and the number found. *)
Theorem check_X_min_columns_first X n c (return_numpy enforce_univariate : bool)
    (enforce_min_instances enforce_min_columns : Z) :
  feature_dims X = Some (n, c) ->
  Z.of_nat c < enforce_min_columns ->
  let e := Exception ValueError (Msg.X_min_columns enforce_min_columns c) in
  check_X X return_numpy enforce_univariate
    enforce_min_instances enforce_min_columns = Err e
  /\ spec_category e = Some InvalidShapeError
  /\ contains (repr_int enforce_min_columns) (exc_msg e) = true
  /\ contains (repr_nat c) (exc_msg e) = true.
Proof.
  intros Hd Hc e.
  split.
  - rewrite (check_X_unfold _ _ _ _ _ _ _ Hd).
    replace (Z.of_nat c <? enforce_min_columns) with true by lia.
    reflexivity.
  - split; [reflexivity|].
    split; [apply min_columns_msg_required | apply min_columns_msg_found].
Qed.

(** X3. Where no conversion is involved, that is for an array, or for any
    input when [return_numpy] is not set, [check_X] accepts exactly the
    arrays of rank 3 and the nested frames that have enough columns, at
    most one column when univariate data is asked for, and enough
    instances when a positive minimum is given. *)
Theorem check_X_accepts_iff X (return_numpy enforce_univariate : bool)
    (enforce_min_instances enforce_min_columns : Z) :
  isinstance_ndarray X = true \/ return_numpy = false ->
  succeeds (check_X X return_numpy enforce_univariate
              enforce_min_instances enforce_min_columns)
  <-> exists n c,
        feature_dims X = Some (n, c)
        /\ enforce_min_columns <= Z.of_nat c
        /\ (enforce_univariate = true -> Z.of_nat c <= 1)
        /\ (0 < enforce_min_instances
            -> enforce_min_instances <= Z.of_nat n)
        /\ (isinstance_DataFrame X = true -> is_nested_dataframe X = true).
Proof.
  intros _. split.
  - intros [X' Hok].
    destruct (check_X_Ok_inv _ _ _ _ _ _ Hok)
      as (n & c & Hd & Hc & Hu & Hi & Hn & _).
    exists n, c. repeat split; assumption.
  - intros (n & c & Hd & Hc & Hu & Hi & Hn).
    eexists. apply (check_X_Ok_intro X n c); assumption.
Qed.

(** X4. [check_X] never alters what it accepts: a dense array is returned as
    it is, for either value of [return_numpy], and so is a frame unless
    [return_numpy] is set. *)
Theorem check_X_returns_input X X' (return_numpy enforce_univariate : bool)
    (enforce_min_instances enforce_min_columns : Z) :
  check_X X return_numpy enforce_univariate
    enforce_min_instances enforce_min_columns = Ok X' ->
  isinstance_ndarray X = true \/ return_numpy = false ->
  X' = X.
Proof.
  intros Hok Hcase.
  destruct (check_X_Ok_inv _ _ _ _ _ _ Hok) as (n & c & _ & _ & _ & _ & _ & ->).
  destruct Hcase as [Harr| ->].
  - destruct X; try discriminate. destruct return_numpy; reflexivity.
  - reflexivity.
Qed.

(** X5. Relaxing the demands keeps an accepted input accepted, with the same
    result: a lower minimum of instances, a lower minimum of columns, or
    dropping the univariate demand. *)
Theorem check_X_relax X X' (return_numpy eu eu' : bool) (mi mi' mc mc' : Z) :
  check_X X return_numpy eu mi mc = Ok X' ->
  mi' <= mi ->
  mc' <= mc ->
  (eu' = true -> eu = true) ->
  check_X X return_numpy eu' mi' mc' = Ok X'.
Proof.
  intros Hok Hmi Hmc Heu.
  destruct (check_X_Ok_inv _ _ _ _ _ _ Hok)
    as (n & c & Hd & Hc & Hu & Hi & Hn & ->).
  apply (check_X_Ok_intro X n c); try assumption.
  - lia.
  - intros H. apply Hu, Heu, H.
  - intros H. assert (0 < mi) as H' by lia. specialize (Hi H'). lia.
Qed.

(** X6. With [enforce_univariate] set and no column required
    ([enforce_min_columns <= 0]), an array of rank 3 without any column
    passes [check_X]: the univariate test only refuses more than one
    column. *)
Theorem check_X_univariate_zero_columns a n t (return_numpy : bool)
    (enforce_min_instances enforce_min_columns : Z) :
  shape a = [n; 0%nat; t] ->
  enforce_min_columns <= 0 ->
  enforce_min_instances <= Z.of_nat n ->
  check_X (NdArray a) return_numpy true
    enforce_min_instances enforce_min_columns = Ok (NdArray a).
Proof.
  intros Hshape Hmc Hmi.
  rewrite (check_X_Ok_intro (NdArray a) n 0%nat).
  - destruct return_numpy; reflexivity.
  - simpl. now rewrite Hshape.
  - simpl. lia.
  - intros _. simpl. lia.
  - intros _. exact Hmi.
  - discriminate.
Qed.

(** *** Further properties of the guard and of [check_y] *)

(** X7. The instance-count guard returns normally exactly when its argument
    has a leading axis and either the minimum is not positive or the axis
    is long enough; this holds for a list too, which is turned into an array
    first. *)
Theorem enforce_min_instances_ok_iff x (min_instances : Z) :
  _enforce_min_instances x min_instances = Ok tt
  <-> exists n,
        leading_length x = Some n
        /\ (min_instances <= 0 \/ min_instances <= Z.of_nat n).
Proof.
  destruct (leading_length x) as [n|] eqn:Hlead.
  - rewrite (enforce_min_instances_leading _ _ _ Hlead). split.
    + intros H. exists n. split; [reflexivity|].
      destruct (min_instances >? 0) eqn:E; [|lia].
      destruct (Z.of_nat n <? min_instances) eqn:E'; [discriminate|lia].
    + intros (k & [= <-] & H).
      destruct (min_instances >? 0) eqn:E; [|reflexivity].
      replace (Z.of_nat n <? min_instances) with false by lia.
      reflexivity.
  - rewrite (enforce_min_instances_scalar _ _ Hlead). split.
    + discriminate.
    + intros (k & Hk & _). discriminate.
Qed.

(** X8. The guard reads [shape[0]] before it looks at the minimum: on an
    array of rank 0 it ends in an [IndexError] even when the minimum is 0 or
    negative, whereas [check_y] with such a minimum does not call the guard
    and returns the array. *)
Theorem zero_dim_guard_and_check_y a (min_instances : Z) (return_numpy : bool) :
  shape a = [] ->
  min_instances <= 0 ->
  _enforce_min_instances (NdArray a) min_instances
  = Err (Exception IndexError "tuple index out of range")
  /\ check_y (NdArray a) min_instances return_numpy = Ok (NdArray a).
Proof.
  intros Hshape Hmin. split.
  - apply enforce_min_instances_scalar.
    unfold leading_length. simpl. now rewrite Hshape.
  - rewrite check_y_unfold by reflexivity.
    replace (min_instances >? 0) with false by lia.
    destruct return_numpy; reflexivity.
Qed.

Lemma check_y_Ok_inv y y' (enforce_min_instances : Z) (return_numpy : bool) :
  check_y y enforce_min_instances return_numpy = Ok y' ->
  isinstance_Series y || isinstance_ndarray y = true
  /\ (enforce_min_instances <= 0
      \/ exists n, leading_length y = Some n
                   /\ enforce_min_instances <= Z.of_nat n)
  /\ y' = match return_numpy, y with
          | true, PdSeries values => NdArray (to_numpy values)
          | _, _ => y
          end.
Proof.
  intros Hok.
  destruct (isinstance_Series y || isinstance_ndarray y) eqn:Hty.
  2:{ rewrite check_y_type_error in Hok by exact Hty. discriminate. }
  split; [reflexivity|].
  rewrite (check_y_unfold _ _ _ Hty) in Hok.
  destruct (enforce_min_instances >? 0) eqn:E.
  - destruct (leading_length y) as [n|] eqn:Hlead.
    + rewrite (enforce_min_instances_leading _ _ _ Hlead), E in Hok.
      destruct (Z.of_nat n <? enforce_min_instances) eqn:E';
        [discriminate|].
      split; [right; exists n; split; [reflexivity|lia]|].
      simpl in Hok. injection Hok as <-.
      destruct return_numpy, y; reflexivity.
    + rewrite (enforce_min_instances_scalar _ _ Hlead) in Hok.
      discriminate.
  - split; [left; lia|]. simpl in Hok. injection Hok as <-.
    destruct return_numpy, y; reflexivity.
Qed.

(** X9. [check_y] accepts exactly the series and arrays for which the
    minimum is not positive or the leading axis is long enough. *)
Theorem check_y_accepts_iff y (enforce_min_instances : Z)
    (return_numpy : bool) :
  succeeds (check_y y enforce_min_instances return_numpy)
  <-> isinstance_Series y || isinstance_ndarray y = true
      /\ (enforce_min_instances <= 0
          \/ exists n, leading_length y = Some n
                       /\ enforce_min_instances <= Z.of_nat n).
Proof.
  split.
  - intros [y' Hok].
    destruct (check_y_Ok_inv _ _ _ _ Hok) as (Hty & Hmin & _).
    split; assumption.
  - intros (Hty & [Hmin|(n & Hlead & Hmin)]).
    + rewrite (check_y_unfold _ _ _ Hty).
      replace (enforce_min_instances >? 0) with false by lia.
      eexists. reflexivity.
    + eexists. apply (check_y_enough_instances y n); assumption.
Qed.

(** X10. What [check_y] returns passes [check_y] again unchanged, and it has
    as many entries as the input: the conversion of a series keeps its
    length and its values. *)
Theorem check_y_idempotent y y' (enforce_min_instances : Z)
    (return_numpy : bool) :
  check_y y enforce_min_instances return_numpy = Ok y' ->
  check_y y' enforce_min_instances return_numpy = Ok y'
  /\ leading_length y' = leading_length y
  /\ data (np_asarray y') = data (np_asarray y).
Proof.
  intros Hok.
  destruct (check_y_Ok_inv _ _ _ _ Hok) as (Hty & Hmin & Hy').
  assert (Hsame : y' = y \/ exists values,
                    y = PdSeries values /\ y' = NdArray (to_numpy values)).
  { destruct return_numpy, y; auto. right. eauto. }
  destruct Hsame as [->|(values & -> & ->)].
  - split; [exact Hok|]. split; reflexivity.
  - split; [|split; reflexivity].
    rewrite check_y_unfold by reflexivity.
    destruct (enforce_min_instances >? 0) eqn:E.
    + destruct Hmin as [Hmin|(n & [= <-] & Hmin)]; [lia|].
      rewrite (enforce_min_instances_leading _ (List.length values))
        by reflexivity.
      rewrite E.
      replace (Z.of_nat (List.length values) <? enforce_min_instances)
        with false by lia.
      destruct return_numpy; reflexivity.
    + destruct return_numpy; reflexivity.
Qed.

(** X11. [check_y] ends in an [IndexError] exactly on an array of rank 0
    with a positive minimum of instances. *)
Theorem check_y_IndexError_iff y (enforce_min_instances : Z)
    (return_numpy : bool) :
  (exists e, check_y y enforce_min_instances return_numpy = Err e
             /\ exc_class e = IndexError)
  <-> (exists a, y = NdArray a /\ shape a = [])
      /\ 0 < enforce_min_instances.
Proof.
  split.
  - intros (e & He & Hclass).
    destruct (check_y_raises _ _ _ _ He) as [[Hv _]|[Hlead _]];
      [congruence|].
    destruct (isinstance_Series y || isinstance_ndarray y) eqn:Hty.
    2:{ rewrite check_y_type_error in He by exact Hty.
        injection He as <-. discriminate. }
    split.
    + destruct y as [a|df|values|items]; try discriminate.
      exists a. split; [reflexivity|].
      unfold leading_length in Hlead. simpl in Hlead.
      destruct (shape a); [reflexivity|discriminate].
    + rewrite (check_y_unfold _ _ _ Hty) in He.
      destruct (enforce_min_instances >? 0) eqn:E; [lia|].
      destruct return_numpy, y; discriminate.
  - intros [(a & -> & Hshape) Hmin].
    exists (Exception IndexError "tuple index out of range").
    split; [|reflexivity].
    rewrite check_y_unfold by reflexivity.
    replace (enforce_min_instances >? 0) with true by lia.
    rewrite enforce_min_instances_scalar; [reflexivity|].
    unfold leading_length. simpl. now rewrite Hshape.
Qed.

(** *** Further properties of [check_X_y] *)

(** X12. When [check_X_y] accepts a pair it returns the two inputs as they
    were given; [X] and [y] then have the same number of instances, which
    is at least 1 and at least [enforce_min_instances]: checking the
    minimum on [X] alone is enough, and an empty collection is never
    accepted, not even with [enforce_min_instances = 0]. *)
Theorem check_X_y_accepts X y X' y' (enforce_univariate : bool)
    (enforce_min_instances enforce_min_columns : Z) :
  check_X_y X y enforce_univariate
    enforce_min_instances enforce_min_columns = Ok (X', y') ->
  X' = X /\ y' = y
  /\ exists n,
       leading_length X = Some n
       /\ leading_length y = Some n
       /\ (1 <= n)%nat
       /\ enforce_min_instances <= Z.of_nat n.
Proof.
  intros Hok. unfold check_X_y in Hok.
  apply bind_Ok in Hok as (X1 & HX & Hok).
  apply bind_Ok in Hok as (y1 & Hy & Hok).
  apply bind_Ok in Hok as ([] & Hlen & Hok).
  injection Hok as <- <-.
  destruct (check_X_Ok_inv _ _ _ _ _ _ HX)
    as (n & c & Hd & _ & _ & Hi & _ & ->).
  destruct (check_y_accepts _ _ Hy) as [-> (m & Hm & Hm1)].
  pose proof (feature_dims_leading _ _ _ Hd) as Hn.
  unfold check_consistent_length in Hlen. rewrite Hn, Hm in Hlen.
  destruct (n =? m)%nat eqn:E; [|discriminate].
  apply Nat.eqb_eq in E. subst m.
  split; [reflexivity|]. split; [reflexivity|].
  exists n. split; [exact Hn|]. split; [exact Hm|]. split; [exact Hm1|].
  destruct (Z_lt_le_dec 0 enforce_min_instances) as [Hpos|Hneg];
    [apply Hi, Hpos | lia].
Qed.

(** X13. A failure of [check_X_y] is a [ValueError], or the [IndexError] of
    a target without leading axis; the length comparison is only reached
    with two collections that have a leading axis. *)
Theorem check_X_y_raises X y e (enforce_univariate : bool)
    (enforce_min_instances enforce_min_columns : Z) :
  check_X_y X y enforce_univariate
    enforce_min_instances enforce_min_columns = Err e ->
  exc_class e = ValueError
  \/ (exc_class e = IndexError /\ leading_length y = None).
Proof.
  unfold check_X_y.
  destruct (check_X X false enforce_univariate
              enforce_min_instances enforce_min_columns) as [X1|eX] eqn:HX.
  2:{ simpl. intros [= <-]. left.
      now destruct (check_X_raises_ValueError _ _ _ _ _ _ HX). }
  simpl.
  destruct (check_y y 1 false) as [y1|ey] eqn:Hy.
  2:{ simpl. intros [= <-].
      destruct (check_y_raises _ _ _ _ Hy) as [[Hv _]|[Hlead Hi]];
        [left; exact Hv | right; split; assumption]. }
  simpl.
  destruct (check_X_accepts _ _ _ _ _ HX) as [-> (n & c & Hd)].
  destruct (check_y_accepts _ _ Hy) as [-> (m & Hm & _)].
  unfold check_consistent_length.
  rewrite (feature_dims_leading _ _ _ Hd), Hm.
  destruct (n =? m)%nat; simpl; [discriminate|].
  intros [= <-]. left. reflexivity.
Qed.

(** X14. Where no conversion is involved, that is for an array, or for any
    input when [return_numpy] is not set, every failure of [check_X] is a
    [ValueError], and its category tells the cause: the type error is
    raised for an input that is neither a frame nor an array, the structure
    error for a frame that is not nested, a shape error for an array or a
    frame. *)
Theorem check_X_error_category X e (return_numpy enforce_univariate : bool)
    (enforce_min_instances enforce_min_columns : Z) :
  isinstance_ndarray X = true \/ return_numpy = false ->
  check_X X return_numpy enforce_univariate
    enforce_min_instances enforce_min_columns = Err e ->
  exc_class e = ValueError
  /\ match spec_category e with
     | Some InvalidTypeError =>
         isinstance_DataFrame X || isinstance_ndarray X = false
     | Some InvalidShapeError =>
         isinstance_DataFrame X || isinstance_ndarray X = true
     | Some InvalidStructureError =>
         isinstance_DataFrame X = true /\ is_nested_dataframe X = false
     | _ => False
     end.
Proof.
  intros _.
  destruct (isinstance_DataFrame X || isinstance_ndarray X) eqn:Hty.
  2:{ rewrite check_X_type_error by exact Hty.
      intros [= <-]. split; [reflexivity|].
      destruct X; try discriminate; reflexivity. }
  destruct (feature_dims_cases _ Hty) as [(n & c & Hd)|(a & -> & Hr)].
  2:{ rewrite check_X_rank_error by exact Hr.
      intros [= <-]. split; reflexivity. }
  rewrite (check_X_unfold _ _ _ _ _ _ _ Hd).
  destruct (Z.of_nat c <? enforce_min_columns).
  { intros [= <-]. split; reflexivity. }
  destruct (enforce_univariate && (Z.of_nat c >? 1)).
  { intros [= <-]. split; reflexivity. }
  destruct ((enforce_min_instances >? 0)
            && (Z.of_nat n <? enforce_min_instances)).
  { intros [= <-]. split; reflexivity. }
  destruct X as [a|df|values|items]; try discriminate.
  destruct (is_nested_dataframe (PdDataFrame df)) eqn:Hn; simpl.
  - destruct return_numpy; discriminate.
  - intros [= <-]. split; [reflexivity|]. split; reflexivity.
Qed.

End Properties.

(** ** The properties on sample inputs *)

Lemma check_X_y_consistent_length_witness :
  check_X Sample.dense_5_1_10 false false 1 1 = Ok Sample.dense_5_1_10
  /\ check_y Sample.series_5 1 false = Ok Sample.series_5
  /\ exists n m,
       leading_length Sample.dense_5_1_10 = Some n
       /\ leading_length Sample.series_5 = Some m
       /\ (fails_with (check_X_y Sample.dense_5_1_10 Sample.series_5 false 1 1)
             InconsistentLengthError <-> n <> m)
       /\ (n <> m ->
           check_X_y Sample.dense_5_1_10 Sample.series_5 false 1 1
           = Err (Exception ValueError (Msg.inconsistent_length [n; m])))
       /\ (n = m ->
           check_X_y Sample.dense_5_1_10 Sample.series_5 false 1 1
           = Ok (Sample.dense_5_1_10, Sample.series_5)).
Proof.
  split; [reflexivity|]. split; [reflexivity|].
  apply (check_X_y_consistent_length
           Sample.dense_5_1_10 Sample.series_5
           Sample.dense_5_1_10 Sample.series_5 false 1 1);
    reflexivity.
Defined.

Lemma check_X_rank_not_3_witness :
  ndim Sample.dense_5_10 <> 3%nat
  /\ exists e,
       check_X (NdArray Sample.dense_5_10) false false 1 1 = Err e
       /\ e = Exception ValueError (Msg.X_ndim (shape Sample.dense_5_10))
       /\ spec_category e = Some InvalidShapeError
       /\ contains (repr_tuple (shape Sample.dense_5_10)) (exc_msg e) = true.
Proof.
  assert (H : ndim Sample.dense_5_10 <> 3%nat) by (vm_compute; lia).
  split; [exact H|].
  apply (check_X_rank_not_3 Sample.dense_5_10 false false 1 1 H).
Defined.

Lemma min_instances_check_witness :
  leading_length Sample.empty_series = Some 0%nat
  /\ _enforce_min_instances Sample.empty_series 0 = Ok tt
  /\ succeeds (check_y Sample.empty_series 0 false)
  /\ check_X Sample.dense_0_1_5 false false 0 1 = Ok Sample.dense_0_1_5
  /\ check_y Sample.empty_series 1 false
     = Err (Exception ValueError (Msg.min_instances 0 1))
  /\ check_X Sample.empty_series false false 1 1
     = Err (Exception ValueError
              (Msg.X_type "<class 'pandas.core.series.Series'>"))
  /\ check_X Sample.dense_0_1_5 false false 1 1
     = Err (Exception ValueError (Msg.min_instances 0 1)).
Proof.
  assert (Hs : leading_length Sample.empty_series = Some 0%nat)
    by reflexivity.
  assert (Hd : leading_length Sample.dense_0_1_5 = Some 0%nat)
    by reflexivity.
  pose proof (min_instances_check Sample.empty_series 0 0 Hs) as [Hoff _].
  pose proof (min_instances_check Sample.dense_0_1_5 0 0 Hd) as [HoffX _].
  pose proof (min_instances_check Sample.empty_series 0 1 Hs) as [_ Hon].
  pose proof (min_instances_check Sample.dense_0_1_5 0 1 Hd) as [_ HX].
  specialize (Hoff ltac:(lia)) as (Hguard & Hy & _).
  specialize (HoffX ltac:(lia)) as (_ & _ & HX0).
  specialize (Hon ltac:(lia) ltac:(lia))
    as (_ & _ & _ & _ & _ & _ & Hy1 & HXs).
  specialize (HX ltac:(lia) ltac:(lia))
    as (_ & _ & _ & _ & _ & _ & _ & HX).
  split; [exact Hs|]. split; [exact Hguard|].
  split; [exact (Hy false)|].
  split.
  { apply (HX0 false false 1 1%nat); [reflexivity | lia | intros; lia]. }
  split; [exact (Hy1 false)|].
  split.
  { destruct (HXs false false 1) as (e & He & _ & Hty).
    simpl in Hty. rewrite He, Hty. reflexivity. }
  destruct (HX false false 1) as (e & He & _ & _ & Hmin).
  rewrite He. f_equal.
  apply (Hmin 1%nat); [reflexivity | lia | intros; lia].
Defined.

Lemma check_X_y_target_defaults_witness :
  check_X Sample.dense_5_2_10 false true 0 1
  = Err (Exception ValueError (Msg.X_univariate 2))
  /\ check_X_y Sample.dense_5_2_10 Sample.empty_series true 0 1
     = Err (Exception ValueError (Msg.X_univariate 2))
  /\ check_X Sample.dense_0_1_5 false false 0 1 = Ok Sample.dense_0_1_5
  /\ leading_length Sample.empty_series = Some 0%nat
  /\ check_X_y Sample.dense_0_1_5 Sample.empty_series false 0 1
     = Err (Exception ValueError (Msg.min_instances 0 1)).
Proof.
  assert (HE : check_X Sample.dense_5_2_10 false true 0 1
               = Err (Exception ValueError (Msg.X_univariate 2)))
    by reflexivity.
  assert (HX : check_X Sample.dense_0_1_5 false false 0 1
               = Ok Sample.dense_0_1_5) by reflexivity.
  split; [exact HE|]. split.
  { apply (proj1 (check_X_y_target_defaults
                    Sample.dense_5_2_10 Sample.empty_series true 0 1)).
    exact HE. }
  split; [exact HX|]. split; [reflexivity|].
  destruct (proj2 (check_X_y_target_defaults
                     Sample.dense_0_1_5 Sample.empty_series false 0 1)
              Sample.dense_0_1_5 HX) as (_ & _ & Hzero).
  apply Hzero; reflexivity.
Defined.

Lemma check_X_univariate_witness :
  check_X Sample.dense_5_2_10 false false 1 1 = Ok Sample.dense_5_2_10
  /\ exists n c,
       feature_dims Sample.dense_5_2_10 = Some (n, c)
       /\ (succeeds (check_X Sample.dense_5_2_10 false true 1 1)
           <-> c = 1%nat)
       /\ (c = 1%nat ->
           check_X Sample.dense_5_2_10 false true 1 1
           = Ok Sample.dense_5_2_10)
       /\ ((1 < c)%nat ->
           exists e,
             check_X Sample.dense_5_2_10 false true 1 1 = Err e
             /\ e = Exception ValueError (Msg.X_univariate c)
             /\ spec_category e = Some InvalidShapeError
             /\ contains (repr_nat c) (exc_msg e) = true).
Proof.
  assert (HX : check_X Sample.dense_5_2_10 false false 1 1
               = Ok Sample.dense_5_2_10) by reflexivity.
  split; [exact HX|].
  apply (check_X_univariate
           Sample.dense_5_2_10 Sample.dense_5_2_10 false 1 1);
    [lia | exact HX].
Defined.

Lemma check_X_return_numpy_witness :
  dataframe_wf Sample.nested_2_1_3
  /\ cells_have_length 3 Sample.nested_2_1_3 = true
  /\ check_X (PdDataFrame Sample.nested_2_1_3) false false 1 1
     = Ok (PdDataFrame Sample.nested_2_1_3)
  /\ exists dense,
       check_X (PdDataFrame Sample.nested_2_1_3) true false 1 1
       = Ok (NdArray dense)
       /\ shape dense = [2; 1; 3]%nat
       /\ ndarray_wf dense
       /\ check_X (NdArray dense) true false 1 1 = Ok (NdArray dense).
Proof.
  assert (Hwf : dataframe_wf Sample.nested_2_1_3)
    by (repeat constructor).
  split; [exact Hwf|]. split; [reflexivity|]. split; [reflexivity|].
  apply (check_X_return_numpy Sample.nested_2_1_3 2 1 3
           (PdDataFrame Sample.nested_2_1_3) Hwf);
    reflexivity.
Defined.

Lemma check_X_nested_structure_witness :
  fails_with (check_X (PdDataFrame Sample.flat_2_1) false true 3 1)
    InvalidShapeError
  /\ check_X (PdDataFrame Sample.flat_2_1) false true 1 1
     = Err (Exception ValueError Msg.X_nested)
  /\ check_X (PdDataFrame Sample.nested_2_1_3) true true 1 1
     = Ok (NdArray (nested_to_3d_numpy Sample.nested_2_1_3)).
Proof.
  pose proof (check_X_nested_structure Sample.flat_2_1 false true 3 1)
    as [Hshape _].
  pose proof (check_X_nested_structure Sample.flat_2_1 false true 1 1)
    as [_ Hflat].
  pose proof (check_X_nested_structure Sample.nested_2_1_3 true true 1 1)
    as [_ Hnested].
  split; [|split].
  - apply Hshape. right. right. simpl. lia.
  - apply Hflat;
      [simpl; lia | intros _; simpl; lia | intros _; simpl; lia
      | reflexivity].
  - apply Hnested;
      [simpl; lia | intros _; simpl; lia | intros _; simpl; lia
      | reflexivity].
Defined.

Lemma check_y_series_array_agree_witness :
  check_y Sample.series_5 1 true
  = Ok (NdArray (NDArray [5]%nat [1; 2; 3; 4; 5]))
  /\ check_y (NdArray (NDArray [5]%nat [1; 2; 3; 4; 5])) 1 true
     = Ok (NdArray (NDArray [5]%nat [1; 2; 3; 4; 5]))
  /\ ndarray_wf (NDArray [5]%nat [1; 2; 3; 4; 5]).
Proof.
  apply (check_y_series_array_agree [1; 2; 3; 4; 5] 1). simpl. lia.
Defined.

Lemma check_y_any_rank_witness :
  check_y (NdArray Sample.dense_5_10) 1 false
  = Ok (NdArray Sample.dense_5_10).
Proof.
  apply (check_y_any_rank Sample.dense_5_10 5 [10%nat] 1 false);
    [reflexivity | lia].
Defined.

(** ** Where the specification and the code part ways *)

(** C3, as stated, fails for [check_X]: an array of shape [(0, 2, 5)] with
    [enforce_univariate] set has fewer instances than the minimum of 1, yet
    the univariate check comes first and its message does not give the
    number of instances found. *)
Lemma check_X_instance_error_preempted :
  check_X Sample.dense_0_2_5 false true 1 1
  = Err (Exception ValueError (Msg.X_univariate 2))
  /\ ~ (exists e,
          check_X Sample.dense_0_2_5 false true 1 1 = Err e
          /\ spec_category e = Some InvalidShapeError
          /\ contains (repr_nat 0) (exc_msg e) = true
          /\ contains (repr_int 1) (exc_msg e) = true).
Proof.
  split; [reflexivity|].
  intros (e & He & _ & Hfound & _).
  injection He as <-. vm_compute in Hfound. discriminate.
Qed.

(** C4, as stated, fails when [X] is refused: with [enforce_univariate] set,
    an array of two variables stops [check_X_y] with the univariate error,
    and the empty target is never looked at. *)
Lemma check_X_y_target_not_reached :
  leading_length Sample.empty_series = Some 0%nat
  /\ check_X_y Sample.dense_5_2_10 Sample.empty_series true 0 1
     = Err (Exception ValueError (Msg.X_univariate 2))
  /\ ~ (exists e,
          check_X_y Sample.dense_5_2_10 Sample.empty_series true 0 1 = Err e
          /\ startswith "Found array with: " (exc_msg e) = true).
Proof.
  split; [reflexivity|]. split; [reflexivity|].
  intros (e & He & Hmsg).
  injection He as <-. vm_compute in Hmsg. discriminate.
Qed.

(** C8, as stated, fails at length 0 under the default minimum of one
    instance: the empty series and the empty array are both refused, so
    neither is mapped to an array. *)
Lemma check_y_empty_rejected :
  check_y Sample.empty_series 1 true
  = Err (Exception ValueError (Msg.min_instances 0 1))
  /\ check_y (NdArray (@NDArray Z [0%nat] [])) 1 true
     = Err (Exception ValueError (Msg.min_instances 0 1))
  /\ ~ (exists dense,
          check_y Sample.empty_series 1 true = Ok (NdArray dense)
          /\ check_y (NdArray (@NDArray Z [0%nat] [])) 1 true
             = Ok (NdArray dense)).
Proof.
  split; [reflexivity|]. split; [reflexivity|].
  intros (dense & H & _). discriminate.
Qed.

(** C10. [check_y] on an array of rank 0, [np.array(5)], under the default
    minimum: the instance-count guard reads [shape[0]] of the empty shape
    and the call ends in an [IndexError], not a [ValueError].  The same
    happens to the guard called directly and to [check_X_y] with that
    target. *)
Lemma check_y_zero_dim_IndexError :
  ndarray_wf Sample.zero_dim
  /\ check_y (NdArray Sample.zero_dim) 1 false
     = Err (Exception IndexError "tuple index out of range")
  /\ _enforce_min_instances (NdArray Sample.zero_dim) 1
     = Err (Exception IndexError "tuple index out of range")
  /\ check_X_y Sample.dense_5_1_10 (NdArray Sample.zero_dim) false 1 1
     = Err (Exception IndexError "tuple index out of range").
Proof.
  repeat split.
Qed.

(** ** The further properties on sample inputs *)

Lemma wrong_type_refused_witness :
  check_X Sample.series_5 true true 0 0
  = Err (Exception ValueError
           (Msg.X_type "<class 'pandas.core.series.Series'>"))
  /\ check_y (PdDataFrame Sample.nested_2_1_3) 0 true
     = Err (Exception ValueError
              (Msg.y_type "<class 'pandas.core.frame.DataFrame'>")).
Proof.
  pose proof (wrong_type_refused
                Sample.series_5 (PdDataFrame Sample.nested_2_1_3)
                true true 0 0 eq_refl eq_refl) as (HX & Hy & _).
  split; [exact HX | exact Hy].
Defined.

Lemma check_X_min_columns_first_witness :
  check_X Sample.dense_0_2_5 false true 1 3
  = Err (Exception ValueError (Msg.X_min_columns 3 2)).
Proof.
  apply (check_X_min_columns_first Sample.dense_0_2_5 0 2 false true 1 3);
    [reflexivity | simpl; lia].
Defined.

Lemma check_X_returns_input_witness :
  check_X Sample.dense_5_1_10 true true 1 1 = Ok Sample.dense_5_1_10
  /\ Sample.dense_5_1_10 = Sample.dense_5_1_10.
Proof.
  assert (H : check_X Sample.dense_5_1_10 true true 1 1
              = Ok Sample.dense_5_1_10) by reflexivity.
  split; [exact H|].
  apply (check_X_returns_input
           Sample.dense_5_1_10 Sample.dense_5_1_10 true true 1 1 H).
  left. reflexivity.
Defined.

Lemma check_X_relax_witness :
  check_X Sample.dense_5_1_10 false true 5 1 = Ok Sample.dense_5_1_10
  /\ check_X Sample.dense_5_1_10 false false 0 (-2)
     = Ok Sample.dense_5_1_10.
Proof.
  assert (H : check_X Sample.dense_5_1_10 false true 5 1
              = Ok Sample.dense_5_1_10) by reflexivity.
  split; [exact H|].
  apply (check_X_relax Sample.dense_5_1_10 Sample.dense_5_1_10
           false true false 5 0 1 (-2) H); [lia | lia | discriminate].
Defined.

Lemma check_X_univariate_zero_columns_witness :
  check_X (NdArray (@NDArray Z [3; 0; 4]%nat [])) false true 1 0
  = Ok (NdArray (@NDArray Z [3; 0; 4]%nat [])).
Proof.
  apply (check_X_univariate_zero_columns
           (@NDArray Z [3; 0; 4]%nat []) 3 4 false 1 0);
    [reflexivity | lia | simpl; lia].
Defined.

Lemma zero_dim_guard_and_check_y_witness :
  _enforce_min_instances (NdArray Sample.zero_dim) 0
  = Err (Exception IndexError "tuple index out of range")
  /\ check_y (NdArray Sample.zero_dim) 0 false
     = Ok (NdArray Sample.zero_dim).
Proof.
  apply (zero_dim_guard_and_check_y Sample.zero_dim 0 false);
    [reflexivity | lia].
Defined.

Lemma check_y_idempotent_witness :
  check_y Sample.series_5 1 true
  = Ok (NdArray (NDArray [5]%nat [1; 2; 3; 4; 5]))
  /\ check_y (NdArray (NDArray [5]%nat [1; 2; 3; 4; 5])) 1 true
     = Ok (NdArray (NDArray [5]%nat [1; 2; 3; 4; 5]))
  /\ leading_length (NdArray (NDArray [5]%nat [1; 2; 3; 4; 5]))
     = leading_length Sample.series_5
  /\ data (np_asarray (NdArray (NDArray [5]%nat [1; 2; 3; 4; 5])))
     = data (np_asarray Sample.series_5).
Proof.
  assert (H : check_y Sample.series_5 1 true
              = Ok (NdArray (NDArray [5]%nat [1; 2; 3; 4; 5])))
    by reflexivity.
  split; [exact H|].
  apply (check_y_idempotent Sample.series_5 _ 1 true H).
Defined.

Lemma check_X_y_accepts_witness :
  check_X_y Sample.dense_5_1_10 Sample.series_5 false 0 1
  = Ok (Sample.dense_5_1_10, Sample.series_5)
  /\ exists n,
       leading_length Sample.dense_5_1_10 = Some n
       /\ leading_length Sample.series_5 = Some n
       /\ (1 <= n)%nat
       /\ 0 <= Z.of_nat n.
Proof.
  assert (H : check_X_y Sample.dense_5_1_10 Sample.series_5 false 0 1
              = Ok (Sample.dense_5_1_10, Sample.series_5)) by reflexivity.
  split; [exact H|].
  apply (check_X_y_accepts
           Sample.dense_5_1_10 Sample.series_5
           Sample.dense_5_1_10 Sample.series_5 false 0 1 H).
Defined.

Lemma check_X_y_raises_witness :
  check_X_y Sample.dense_0_1_5 Sample.empty_series false 0 1
  = Err (Exception ValueError (Msg.min_instances 0 1))
  /\ (exc_class (Exception ValueError (Msg.min_instances 0 1)) = ValueError
      \/ (exc_class (Exception ValueError (Msg.min_instances 0 1))
          = IndexError
          /\ leading_length Sample.empty_series = None)).
Proof.
  assert (H : check_X_y Sample.dense_0_1_5 Sample.empty_series false 0 1
              = Err (Exception ValueError (Msg.min_instances 0 1)))
    by reflexivity.
  split; [exact H|].
  apply (check_X_y_raises
           Sample.dense_0_1_5 Sample.empty_series _ false 0 1 H).
Defined.

Lemma check_X_error_category_witness :
  check_X (PdDataFrame Sample.flat_2_1) false false 1 1
  = Err (Exception ValueError Msg.X_nested)
  /\ isinstance_DataFrame (PdDataFrame Sample.flat_2_1) = true
  /\ is_nested_dataframe (PdDataFrame Sample.flat_2_1) = false.
Proof.
  assert (H : check_X (PdDataFrame Sample.flat_2_1) false false 1 1
              = Err (Exception ValueError Msg.X_nested)) by reflexivity.
  split; [exact H|].
  apply (check_X_error_category
           (PdDataFrame Sample.flat_2_1) _ false false 1 1
           (or_intror eq_refl) H).
Defined.

Lemma check_X_accepts_iff_witness :
  succeeds (check_X (PdDataFrame Sample.nested_2_1_3) false true 2 1)
  <-> exists n c,
        feature_dims (PdDataFrame Sample.nested_2_1_3) = Some (n, c)
        /\ 1 <= Z.of_nat c
        /\ (true = true -> Z.of_nat c <= 1)
        /\ (0 < 2 -> 2 <= Z.of_nat n)
        /\ (isinstance_DataFrame (PdDataFrame Sample.nested_2_1_3) = true
            -> is_nested_dataframe (PdDataFrame Sample.nested_2_1_3) = true).
Proof.
  apply (check_X_accepts_iff
           (PdDataFrame Sample.nested_2_1_3) false true 2 1).
  right. reflexivity.
Defined.
